(** * HackJusticeAPI: the route handlers over the user and game collections

    A shallow embedding of [routes/games.js], [routes/users.js] and the two
    mongoose schemas.  A collection is a finite map from the document id to
    the document; a handler is a function from the request and the store to the
    response it sends and the store it leaves behind.  Exceptions, early
    [return res...] and the [try]/[catch] of every handler are threaded
    through a small state-and-exception monad. *)

From Stdlib Require Import ZArith Ascii String.
From stdpp Require Import base option strings gmap list sorting.

(** ** Data model (models/User.js, models/Game.js) *)

Module User.
(** An element of [games]: [{ game: ObjectId }]. *)
Record completed := mkCompleted { game : string }.

Record t := mk {
  email : string;
  password : option string;   (* [None] after [.select("-password")] *)
  admin : bool;
  games : list completed;
  date : Z;
}.

(** The [required: true] paths, checked when a new document is saved. *)
Definition valid (u : t) : bool :=
  negb (bool_decide (email u = "")) &&
  match password u with Some p => negb (bool_decide (p = "")) | None => false end.
End User.

Module Answer.
Record t := mk { correct : bool; content : string }.
Definition valid (a : t) : bool := negb (bool_decide (content a = "")).
End Answer.

Module Question.
Record t := mk { order : option Z; content : string; answers : list Answer.t }.
Definition valid (q : t) : bool :=
  negb (bool_decide (content q = "")) && forallb Answer.valid (answers q).
End Question.

Module Game.
Record t := mk {
  title : string;
  icon : option string;
  order : option Z;
  theory : option string;
  questions : list Question.t;
  date : Z;
}.
Definition valid (g : t) : bool :=
  negb (bool_decide (title g = "")) && forallb Question.valid (questions g).
End Game.

(** A stored document: its [_id] and its fields. *)
Definition Doc (A : Type) : Type := string * A.
Definition _id {A} (d : Doc A) : string := d.1.

(** The two collections, keyed by [_id]. *)
Module Db.
Record t := mk {
  users : gmap string User.t;
  games : gmap string Game.t;
}.
End Db.

(** ** Requests and responses *)

Module Req.
Record Params := mkParams { game_id : string; user_id : string }.

Record Body := mkBody {
  email : string;
  password : string;
  title : string;
  icon : option string;
  order : option Z;
  startText : option string;
  endText : option string;
  questions : list Question.t;
}.

(** [req.user], attached by the auth middleware. *)
Record ReqUser := mkUser { id : string }.

Record t := mk {
  x_auth_token : option string;     (* header "x-auth-token" *)
  params : Params;
  body : Body;
  user : option ReqUser;
  (* what [validationResult(req)] holds once the route's express-validator
     checks have run, one message per failed check *)
  errors : list string;
}.
End Req.

Inductive Json :=
  | Msg (msg : string)                        (* { msg } *)
  | Errors (errors : list string)             (* { errors: [{ msg }, ...] } *)
  | Text (s : string)                         (* res.send("...") *)
  | Token (token : string)                    (* { token } *)
  | GameJson (g : Doc Game.t)
  | GamesJson (gs : list (Doc Game.t))
  | UserJson (u : Doc User.t)
  | UsersJson (us : list (Doc User.t))
  | JsonNull.

Record Response := mkResponse { status : nat; body : Json }.

(** What the process draws from outside while it serves one request: the
    [ObjectId] given to a new document, [Date.now()] and the bcrypt salt. *)
Record Env := mkEnv { newId : string; now : Z; salt : string }.

(** ** The handler monad *)

Inductive Err := CastError | TypeError | ValidationError | MongoError.

(** [err.kind]: only a failed ObjectId cast carries one. *)
Definition kind (e : Err) : option string :=
  match e with CastError => Some "ObjectId" | _ => None end.

Inductive Res (A : Type) :=
  | Value (a : A)
  | Sent (r : Response)      (* the handler returned after sending [r] *)
  | Throw (e : Err).
Arguments Value {A} a.
Arguments Sent {A} r.
Arguments Throw {A} e.

Definition M (A : Type) : Type := Db.t → Res A * Db.t.

Global Instance M_ret : MRet M := λ A a db, (Value a, db).

Global Instance M_bind : MBind M := λ A B f m db,
  match m db with
  | (Value a, db') => f a db'
  | (Sent r, db') => (Sent r, db')
  | (Throw e, db') => (Throw e, db')
  end.

Definition throw {A} (e : Err) : M A := λ db, (Throw e, db).
Definition send {A} (code : nat) (b : Json) : M A :=
  λ db, (Sent (mkResponse code b), db).

Definition Handler : Type := Db.t → Response * Db.t.

(** [try { body } catch (err) { handler }]: every path of [body] ends in a
    response or an exception; what was written before a throw stays written. *)
Definition try_catch (body : M Empty_set) (handler : Err → Response) : Handler :=
  λ db, match body db with
        | (Value a, _) => match a with end
        | (Sent r, db') => (r, db')
        | (Throw e, db') => (handler e, db')
        end.

(** Reading a property of a value that may be [null]. *)
Definition prop {A B} (f : A → B) (o : option A) : M B :=
  match o with
  | Some a => mret (f a)
  | None => throw TypeError
  end.

(** ** The store (mongoose) *)

Definition isHexDigit (c : ascii) : bool :=
  let n := nat_of_ascii c in
  ((48 <=? n) && (n <=? 57)) || ((97 <=? n) && (n <=? 102)) || ((65 <=? n) && (n <=? 70)).

(** An [ObjectId] is twelve bytes; a document's [id] is their spelling as 24
    lower-case hex digits, and the collections are keyed by that spelling. *)
Definition toLowerHex (c : ascii) : ascii :=
  let n := nat_of_ascii c in
  if (65 <=? n) && (n <=? 70) then ascii_of_nat (n + 32) else c.

Definition hexDigitOf (n : nat) : ascii :=
  if n <? 10 then ascii_of_nat (48 + n) else ascii_of_nat (87 + n).

Definition hexOfByte (c : ascii) : string :=
  let n := nat_of_ascii c in
  String (hexDigitOf (n / 16)) (String (hexDigitOf (n mod 16)) EmptyString).

(** The cast mongoose applies to an id it is given as a string: 24 hex digits
    of either case name the ObjectId with these digits, any string of 12
    characters names the ObjectId with these 12 bytes, and nothing else is an
    ObjectId. *)
Definition castObjectId (s : string) : option string :=
  let cs := list_ascii_of_string s in
  if (String.length s =? 24) && forallb isHexDigit cs
  then Some (string_of_list_ascii (map toLowerHex cs))
  else if String.length s =? 12
  then Some (String.concat EmptyString (map hexOfByte cs))
  else None.

(** [Model.findById(id)]: the id is cast, and the document with that ObjectId
    is looked up; [null] when there is none, a [CastError] of kind "ObjectId"
    when the id does not cast. *)
Definition findById {A} (coll : Db.t → gmap string A) (id : string) : M (option (Doc A)) :=
  λ db, match castObjectId id with
        | Some k => (Value (pair k <$> coll db !! k), db)
        | None => (Throw CastError, db)
        end.

Definition User_findById : string → M (option (Doc User.t)) := findById Db.users.
Definition Game_findById : string → M (option (Doc Game.t)) := findById Db.games.

(** [.select("-password")] *)
Definition select_no_password (o : option (Doc User.t)) : option (Doc User.t) :=
  (λ d : Doc User.t, (d.1, User.mk (User.email d.2) None (User.admin d.2) (User.games d.2) (User.date d.2))) <$> o.

(** [User.findOne({ email })]: a document with this email, if there is one. *)
Definition User_findOne (email : string) : M (option (Doc User.t)) :=
  λ db, (Value (head (filter (λ d : Doc User.t, User.email d.2 = email)
                             (map_to_list (Db.users db)))), db).

(** [doc.save()] on a new document: the required paths are validated, and the
    insert fails on an id that is taken. *)
Definition User_insert (d : Doc User.t) : M (Doc User.t) :=
  λ db, if negb (User.valid d.2) then (Throw ValidationError, db)
        else match Db.users db !! d.1 with
             | Some _ => (Throw MongoError, db)
             | None => (Value d, Db.mk (<[d.1 := d.2]> (Db.users db)) (Db.games db))
             end.

Definition Game_insert (d : Doc Game.t) : M (Doc Game.t) :=
  λ db, if negb (Game.valid d.2) then (Throw ValidationError, db)
        else match Db.games db !! d.1 with
             | Some _ => (Throw MongoError, db)
             | None => (Value d, Db.mk (Db.users db) (<[d.1 := d.2]> (Db.games db)))
             end.

(** [user.save()] on a loaded document: the document is written back. *)
Definition User_save (d : Doc User.t) : M unit :=
  λ db, (Value (), Db.mk (<[d.1 := d.2]> (Db.users db)) (Db.games db)).

(** [doc.delete()] *)
Definition User_delete (d : Doc User.t) : M unit :=
  λ db, (Value (), Db.mk (delete d.1 (Db.users db)) (Db.games db)).

Definition Game_delete (d : Doc Game.t) : M unit :=
  λ db, (Value (), Db.mk (Db.users db) (delete d.1 (Db.games db))).

(** [Game.find().sort({ date: -1 })] *)
Definition date_desc (a b : Doc Game.t) : Prop := (Game.date b.2 ≤ Game.date a.2)%Z.

Global Instance date_desc_dec (a b : Doc Game.t) : Decision (date_desc a b) :=
  Z_le_dec (Game.date b.2) (Game.date a.2).

Definition Game_find_sort_date_desc : M (list (Doc Game.t)) :=
  λ db, (Value (merge_sort date_desc (map_to_list (Db.games db))), db).

(** ** JavaScript values a callback can return, and [Array.prototype.every] *)

Inductive JsVal := JsUndefined | JsBool (b : bool).

Definition truthy (v : JsVal) : bool :=
  match v with JsUndefined => false | JsBool b => b end.

Definition every {A} (callback : A → JsVal) (l : list A) : bool :=
  forallb (λ x, truthy (callback x)) l.

(** [req.user.id] *)
Definition req_user_id (req : Req.t) : M string := prop Req.id (Req.user req).

(** ** routes/games.js *)

Definition server_error : Response := mkResponse 500 (Text "Server error").

(** [if (err.kind === "ObjectId") 404 else 500], the [catch] of the handlers
    that read a game id from the path. *)
Definition catch_game (err : Err) : Response :=
  if bool_decide (kind err = Some "ObjectId")
  then mkResponse 404 (Msg "Game not found")
  else server_error.

(** [router.post("/", [auth, [check("title", ...).notEmpty()]], ...)] *)
Definition createGame (env : Env) (req : Req.t) : Handler :=
  if negb (bool_decide (Req.errors req = []))
  then λ db, (mkResponse 400 (Errors (Req.errors req)), db)
  else
    try_catch
      (uid ← req_user_id req;
       found ← User_findById uid;
       let admin := select_no_password found in
       isAdmin ← prop (λ d : Doc User.t, User.admin d.2) admin;
       if negb isAdmin
       then send 401 (Msg "Not authorizend. Only administrators can add new games.")
       else
         (* startText and endText are no paths of the schema: they are dropped *)
         let b := Req.body req in
         let newGame : Doc Game.t :=
           (newId env,
            Game.mk (Req.title b) (Req.icon b) (Req.order b) None
                    (Req.questions b) (now env)) in
         game ← Game_insert newGame;
         send 200 (GameJson game))
      (λ err, server_error).

(** [router.get("/", ...)] *)
Definition getGames (req : Req.t) : Handler :=
  try_catch
    (game ← Game_find_sort_date_desc;
     send 200 (GamesJson game))
    (λ err, server_error).

(** [router.get("/:game_id", auth, ...)] *)
Definition getGame (req : Req.t) : Handler :=
  try_catch
    (game ← Game_findById (Req.game_id (Req.params req));
     match game with
     | None => send 404 (Msg "Game not found")
     | Some g => send 200 (GameJson g)
     end)
    catch_game.

(** The user with one more entry at the end of [games]. *)
Definition with_game (u : User.t) (k : string) : User.t :=
  User.mk (User.email u) (User.password u) (User.admin u)
          (User.games u ++ [User.mkCompleted k]) (User.date u).

(** [user.games.push({ game: req.params.game_id })]: the pushed id is cast to
    the ObjectId the schema declares for [game]. *)
Definition push_game (user : Doc User.t) (game_id : string) : M (Doc User.t) :=
  match castObjectId game_id with
  | Some k => mret (user.1, with_game user.2 k)
  | None => throw CastError
  end.

(** The callback given to [every]: a block body whose only statement is the
    comparison; nothing is returned. *)
Definition completed_callback (game_id : string) (element : User.completed) : JsVal :=
  let _ := negb (bool_decide (User.game element = game_id)) in
  JsUndefined.

(** [router.put("/complete/:game_id", auth, ...)] *)
Definition completeGame (req : Req.t) : Handler :=
  try_catch
    (uid ← req_user_id req;
     user ← User_findById uid;
     game ← Game_findById (Req.game_id (Req.params req));
     match game with
     | None => send 404 (Msg "Game not found")
     | Some _ =>
         games ← prop (λ d : Doc User.t, User.games d.2) user;
         u ← prop id user;
         user' ← (if every (completed_callback (Req.game_id (Req.params req))) games
                  then push_game u (Req.game_id (Req.params req))
                  else mret u);
         User_save user';;
         send 200 (UserJson user')
     end)
    catch_game.

(** [router.delete("/:game_id", auth, ...)] *)
Definition deleteGame (req : Req.t) : Handler :=
  try_catch
    (game ← Game_findById (Req.game_id (Req.params req));
     uid ← req_user_id req;
     admin ← User_findById uid;
     match game with
     | None => send 404 (Msg "Game not found")
     | Some g =>
         isAdmin ← prop (λ d : Doc User.t, User.admin d.2) admin;
         if isAdmin : bool
         then (Game_delete g;;
               send 200 (Msg "Game successfully deleted from our platform")) : M Empty_set
         else send 401 (Msg "Not allowed to delete this game")
     end)
    catch_game.

(** ** routes/users.js *)

(** The token payload [{ user: { id } }] and the options given to [jwt.sign]. *)
Record JwtPayload := mkPayload { payload_user : Req.ReqUser }.
Record SignOptions := mkSignOptions { expiresIn : string }.

Definition catch_user (err : Err) : Response :=
  if bool_decide (kind err = Some "ObjectId")
  then mkResponse 404 (Msg "User not found")
  else server_error.

Section Users.
(** [process.env.SECRET], and the functions of bcryptjs and jsonwebtoken
    the handlers call. *)
Variable SECRET : string.
Variable bcrypt_hash : string → string → string.
Variable bcrypt_compare : string → string → bool.
Variable jwt_sign : JwtPayload → string → SignOptions → string.

(** [router.post("/", [check("email", ...).isEmail(),
    check("password", ...).isLength({ min: 6 })], ...)] *)
Definition register (env : Env) (req : Req.t) : Handler :=
  if negb (bool_decide (Req.errors req = []))
  then λ db, (mkResponse 400 (Errors (Req.errors req)), db)
  else
    let email := Req.email (Req.body req) in
    let password := Req.password (Req.body req) in
    try_catch
      (existing ← User_findOne email;
       match existing with
       | Some _ => send 400 (Errors ["User already exists"])
       | None =>
           let user : Doc User.t :=
             (newId env,
              User.mk email (Some (bcrypt_hash password (salt env))) false [] (now env)) in
           saved ← User_insert user;
           let payload := mkPayload (Req.mkUser (_id saved)) in
           send 200 (Token (jwt_sign payload SECRET (mkSignOptions "5d")))
       end)
      (λ err, server_error).

(** [router.post("/auth", [check("email", ...).isEmail(),
    check("password", ...).exists()], ...)] *)
Definition login (req : Req.t) : Handler :=
  if negb (bool_decide (Req.errors req = []))
  then λ db, (mkResponse 400 (Errors (Req.errors req)), db)
  else
    let email := Req.email (Req.body req) in
    let password := Req.password (Req.body req) in
    try_catch
      (found ← User_findOne email;
       match found with
       | None => send 400 (Errors ["Invalid Credentials"])
       | Some user =>
           hashed ← prop id (User.password user.2);
           if negb (bcrypt_compare password hashed)
           then send 400 (Errors ["Invalid Credentials"])
           else
             let payload := mkPayload (Req.mkUser (_id user)) in
             send 200 (Token (jwt_sign payload SECRET (mkSignOptions "5 days")))
       end)
      (λ err, server_error).
End Users.

(** [router.get("/auth", auth, ...)] *)
Definition getAuth (req : Req.t) : Handler :=
  try_catch
    (uid ← req_user_id req;
     found ← User_findById uid;
     match select_no_password found with
     | Some user => send 200 (UserJson user)
     | None => send 200 JsonNull
     end)
    (λ err, mkResponse 500 (Text "Server Error")).

(** [router.get("/", ...)] *)
Definition getUsers (req : Req.t) : Handler :=
  try_catch
    (users ← (λ db, (Value (map_to_list (Db.users db)), db)) : M (list (Doc User.t));
     send 200 (UsersJson (omap (λ d, select_no_password (Some d)) users)))
    (λ err, mkResponse 500 (Text "Server Error")).

(** [router.delete("/:user_id", auth, ...)] *)
Definition deleteUser (req : Req.t) : Handler :=
  try_catch
    (user ← User_findById (Req.user_id (Req.params req));
     uid ← req_user_id req;
     admin ← User_findById uid;
     match user with
     | None => send 404 (Msg "User not found")
     | Some u =>
         isAdmin ← prop (λ d : Doc User.t, User.admin d.2) admin;
         if (isAdmin : bool) || bool_decide (Req.user_id (Req.params req) = uid)
         then (User_delete u;;
               send 200 (Msg "User successfully deleted from our platform")) : M Empty_set
         else send 401 (Msg "Not allowed to delete this user")
     end)
    catch_user.

(** ** Routing: which routes run the auth middleware first *)

Definition Middleware : Type := Req.t → Response + Req.t.

Definition guarded (mw : Middleware) (h : Req.t → Handler) (req : Req.t) : Handler :=
  λ db, match mw req with
        | inl r => (r, db)
        | inr req' => h req' db
        end.

Inductive GamesRoute :=
  | POST_games | GET_games | GET_games_id | PUT_games_complete_id | DELETE_games_id.

Definition games_router (auth : Middleware) (env : Env) (r : GamesRoute) : Req.t → Handler :=
  match r with
  | POST_games => guarded auth (createGame env)
  | GET_games => getGames
  | GET_games_id => guarded auth getGame
  | PUT_games_complete_id => guarded auth completeGame
  | DELETE_games_id => guarded auth deleteGame
  end.

Inductive UsersRoute :=
  | POST_users | GET_users_auth | GET_users | POST_users_auth | DELETE_users_id.

Definition users_router (SECRET : string) (bcrypt_hash : string → string → string)
    (bcrypt_compare : string → string → bool)
    (jwt_sign : JwtPayload → string → SignOptions → string)
    (auth : Middleware) (env : Env) (r : UsersRoute) : Req.t → Handler :=
  match r with
  | POST_users => register SECRET bcrypt_hash jwt_sign env
  | GET_users_auth => guarded auth getAuth
  | GET_users => getUsers
  | POST_users_auth => login SECRET bcrypt_compare jwt_sign
  | DELETE_users_id => guarded auth deleteUser
  end.

(** [req.user = ...]: the request with an identity attached. *)
Definition attach (req : Req.t) (u : Req.ReqUser) : Req.t :=
  Req.mk (Req.x_auth_token req) (Req.params req) (Req.body req) (Some u) (Req.errors req).

(** Modelled from the spec: the auth middleware ([middleware/auth.js]) is not
    among the sources.  It reads the token from the request header; with no
    token, or with a token that [verify] reports invalid, the request is
    rejected as "unauthorized" (status 401, body [{ msg }]) and the handler is
    not run; with a valid token the identity it embeds is attached to the
    request.  [verify] stands for the check of signature and expiry. *)
Definition auth (verify : string → option Req.ReqUser) (no_token invalid_token : string) : Middleware :=
  λ req,
    match Req.x_auth_token req with
    | None => inl (mkResponse 401 (Msg no_token))
    | Some token =>
        match verify token with
        | None => inl (mkResponse 401 (Msg invalid_token))
        | Some u => inr (attach req u)
        end
    end.

(** A request that carries no token, or one that [verify] reports invalid. *)
Definition no_valid_token (verify : string → option Req.ReqUser) (req : Req.t) : Prop :=
  Req.x_auth_token req = None ∨
  ∃ token, Req.x_auth_token req = Some token ∧ verify token = None.

(** ** Observations on the store *)

(** The [games] list of the user [uid], empty when there is no such user. *)
Definition completedGames (db : Db.t) (uid : string) : list User.completed :=
  default [] (User.games <$> Db.users db !! uid).

(** How many entries of a [games] list refer to the game [gid]. *)
Definition references (gid : string) (l : list User.completed) : nat :=
  length (filter (λ e, User.game e = gid) l).

(** The id names no document of the collection: it does not cast to an
    ObjectId, or no document has the ObjectId it casts to. *)
Definition absent {A} (coll : gmap string A) (id : string) : Prop :=
  match castObjectId id with
  | Some k => coll !! k = None
  | None => True
  end.

Definition not_found_game : Response := mkResponse 404 (Msg "Game not found").
Definition not_found_user : Response := mkResponse 404 (Msg "User not found").

(** The document registration stores for a request: the request's email, the
    bcrypt hash of its password, no admin right, no completed game. *)
Definition new_user (bcrypt_hash : string → string → string) (env : Env) (req : Req.t) : User.t :=
  User.mk (Req.email (Req.body req))
          (Some (bcrypt_hash (Req.password (Req.body req)) (salt env)))
          false [] (now env).

(** ** Readings of the contract that the handlers do not meet *)

(** The reading of game completion under which the check never gates the
    insert (refuted below): every call of the complete-game operation, for
    a user and a game that exist, appends a reference to the user's list. *)
Definition every_call_appends : Prop :=
  ∀ (req : Req.t) (db : Db.t) (uid ku kg : string) (u : User.t) (g : Game.t),
    Req.user req = Some (Req.mkUser uid) →
    castObjectId uid = Some ku →
    Db.users db !! ku = Some u →
    castObjectId (Req.game_id (Req.params req)) = Some kg →
    Db.games db !! kg = Some g →
    completedGames (completeGame req db).2 ku =
      User.games u ++ [User.mkCompleted kg].

(** The reading under which the permission rejection has a status of its own
    (refuted below): the status of the rejection given to a user with a valid
    token who is no admin (creating a game, deleting a game, deleting another
    user) differs from the status given to a request [req'] whose token is
    missing or invalid. *)
Definition forbidden_status_distinct : Prop :=
  ∀ (SECRET : string) (bcrypt_hash : string → string → string)
    (bcrypt_compare : string → string → bool)
    (jwt_sign : JwtPayload → string → SignOptions → string)
    (verify : string → option Req.ReqUser) (no_token invalid_token : string)
    (env : Env) (req req' : Req.t) (db : Db.t) (token uid ku kg kt : string)
    (a : User.t),
    let mw := auth verify no_token invalid_token in
    let users := users_router SECRET bcrypt_hash bcrypt_compare jwt_sign mw in
    Req.x_auth_token req = Some token →
    verify token = Some (Req.mkUser uid) →
    castObjectId uid = Some ku →
    Db.users db !! ku = Some a →
    User.admin a = false →
    no_valid_token verify req' →
    (Req.errors req = [] →
       status (games_router mw env POST_games req db).1
         ≠ status (games_router mw env POST_games req' db).1) ∧
    (castObjectId (Req.game_id (Req.params req)) = Some kg →
     is_Some (Db.games db !! kg) →
       status (games_router mw env DELETE_games_id req db).1
         ≠ status (games_router mw env DELETE_games_id req' db).1) ∧
    (castObjectId (Req.user_id (Req.params req)) = Some kt →
     is_Some (Db.users db !! kt) →
     Req.user_id (Req.params req) ≠ uid →
       status (users env DELETE_users_id req db).1
         ≠ status (users env DELETE_users_id req' db).1).

(** ** Sample data *)

Module Sample.
Definition u1 : string := "5f1d7f3a9c1b2a0012345601".
Definition u2 : string := "5f1d7f3a9c1b2a0012345602".
Definition u3 : string := "5f1d7f3a9c1b2a0012345603".
Definition g1 : string := "5f1d7f3a9c1b2a00123456a1".
Definition g2 : string := "5f1d7f3a9c1b2a00123456a2".
Definition g3 : string := "5f1d7f3a9c1b2a00123456a3".

(** The ids of Alice and of Quiz1 spelled with upper-case digits. *)
Definition U1 : string := "5F1D7F3A9C1B2A0012345601".
Definition G1 : string := "5F1D7F3A9C1B2A00123456A1".

Definition alice : User.t := User.mk "a@x.com" (Some "$2a$05$Kq") false [] 1000.
Definition root : User.t := User.mk "root@x.com" (Some "$2a$05$Zw") true [] 900.
Definition quiz (title : string) (order date : Z) : Game.t :=
  Game.mk title None (Some order) None
          [Question.mk None "Q1" [Answer.mk true "A"]] date.

(** Alice (no admin) and root (admin); two games. *)
Definition db : Db.t :=
  Db.mk (<[u1 := alice]> {[u2 := root]})
        (<[g1 := quiz "Quiz1" 2 10]> {[g2 := quiz "Quiz2" 3 20]}).

(** Three games whose [order] follows neither direction of their dates. *)
Definition db3 : Db.t :=
  Db.mk (Db.users db) (<[g3 := quiz "Quiz3" 1 30]> (Db.games db)).

Definition body : Req.Body :=
  Req.mkBody "a@x.com" "secret1" "Quiz4" None (Some 4%Z) None None [].

(** A request of the user [uid] (already through the middleware) that names
    the game [gid] and the user [tid] in its path. *)
Definition req (uid gid tid : string) : Req.t :=
  Req.mk (Some "t") (Req.mkParams gid tid) body (Some (Req.mkUser uid)) [].

Definition env : Env := mkEnv "5f1d7f3a9c1b2a00123456a4" 40 "$2a$05$salt".

(** A token check that knows one token, Alice's. *)
Definition verify (token : string) : option Req.ReqUser :=
  if bool_decide (token = "alice-token") then Some (Req.mkUser u1) else None.

Definition auth : Middleware := auth verify "No token" "Token is not valid".

(** A request as it arrives, before the middleware. *)
Definition raw (token : option string) (gid tid : string) : Req.t :=
  Req.mk token (Req.mkParams gid tid) body None [].

(** A registration or login request with the given credentials. *)
Definition credentials (email password : string) : Req.t :=
  Req.mk None (Req.mkParams "" "")
         (Req.mkBody email password "" None None None None []) None [].

(** Stand-ins for bcrypt and jsonwebtoken: the hash is the salt followed by
    the password, the token shows the id and the expiry it was signed with. *)
Definition hash (password salt : string) : string := salt +:+ password.
Definition compare (password hashed : string) : bool :=
  bool_decide (hashed = "$2a$05$salt" +:+ password).
Definition sign (p : JwtPayload) (secret : string) (o : SignOptions) : string :=
  Req.id (payload_user p) +:+ "/" +:+ expiresIn o.
End Sample.

(** * Properties *)

(** ** Running a handler *)

Ltac unfold_ops :=
  unfold try_catch, guarded, req_user_id, prop, User_findById, Game_findById,
    findById, User_findOne, User_insert, Game_insert, User_save, User_delete,
    Game_delete, Game_find_sort_date_desc, push_game, send, throw,
    mbind, M_bind, mret, M_ret in *.

Lemma every_completed_callback (gid : string) (l : list User.completed) :
  every (completed_callback gid) l = bool_decide (l = []).
Proof. by destruct l. Qed.

(** What [completeGame] does once the user and the game are found. *)
Lemma completeGame_found (req : Req.t) (db : Db.t) (uid ku kg : string) (u : User.t) (g : Game.t) :
  Req.user req = Some (Req.mkUser uid) →
  castObjectId uid = Some ku →
  Db.users db !! ku = Some u →
  castObjectId (Req.game_id (Req.params req)) = Some kg →
  Db.games db !! kg = Some g →
  let u' := if bool_decide (User.games u = []) then with_game u kg else u in
  completeGame req db =
    (mkResponse 200 (UserJson (ku, u')),
     Db.mk (<[ku := u']> (Db.users db)) (Db.games db)).
Proof.
  intros Hu Huid Hlook Hgid Hg. unfold completeGame. unfold_ops.
  rewrite Hu. simpl. rewrite Huid, Hlook. simpl. rewrite Hgid, Hg. simpl.
  rewrite every_completed_callback. by case_bool_decide.
Qed.

Lemma completedGames_insert (db : Db.t) (uid : string) (u : User.t) :
  completedGames (Db.mk (<[uid := u]> (Db.users db)) (Db.games db)) uid = User.games u.
Proof. unfold completedGames. simpl. by rewrite lookup_insert_eq. Qed.

(** The lookup goes by the ObjectId, not by the spelling: Quiz1 is found under
    its id in upper-case digits, and a string of 12 characters is an id too,
    one that no sample game has. *)
Example findById_casts_the_id :
  getGame (Sample.req Sample.u1 Sample.G1 "") Sample.db =
    (mkResponse 200 (GameJson (Sample.g1, Sample.quiz "Quiz1" 2 10)), Sample.db) ∧
  castObjectId "abcdefghijkl" = Some "6162636465666768696a6b6c" ∧
  Game_findById "abcdefghijkl" Sample.db = (Value None, Sample.db) ∧
  Game_findById "quiz-1" Sample.db = (Throw CastError, Sample.db).
Proof. by vm_compute. Qed.

(** What the handlers do on the paths the properties below are about. *)

Lemma createGame_non_admin (env : Env) (req : Req.t) (db : Db.t) (uid ku : string) (u : User.t) :
  Req.user req = Some (Req.mkUser uid) →
  castObjectId uid = Some ku →
  Db.users db !! ku = Some u →
  User.admin u = false →
  Req.errors req = [] →
  createGame env req db =
    (mkResponse 401 (Msg "Not authorizend. Only administrators can add new games."), db).
Proof.
  intros Hu Huid Hlook Hadm Herr. unfold createGame. rewrite Herr. simpl.
  unfold_ops. rewrite Hu. simpl. rewrite Huid, Hlook. simpl. by rewrite Hadm.
Qed.

Lemma createGame_invalid_body (env : Env) (req : Req.t) (db : Db.t) :
  Req.errors req ≠ [] →
  createGame env req db = (mkResponse 400 (Errors (Req.errors req)), db).
Proof. intros Herr. unfold createGame. by case_bool_decide. Qed.

Lemma deleteGame_found (req : Req.t) (db : Db.t) (uid ku kg : string) (a : User.t) (g : Game.t) :
  Req.user req = Some (Req.mkUser uid) →
  castObjectId uid = Some ku →
  Db.users db !! ku = Some a →
  castObjectId (Req.game_id (Req.params req)) = Some kg →
  Db.games db !! kg = Some g →
  deleteGame req db =
    if User.admin a
    then (mkResponse 200 (Msg "Game successfully deleted from our platform"),
          Db.mk (Db.users db) (delete kg (Db.games db)))
    else (mkResponse 401 (Msg "Not allowed to delete this game"), db).
Proof.
  intros Hu Huid Hlook Hgid Hg. unfold deleteGame. unfold_ops.
  rewrite Hgid, Hg, Hu. simpl. rewrite Huid, Hlook. simpl.
  by destruct (User.admin a).
Qed.

Lemma deleteUser_found (req : Req.t) (db : Db.t) (uid ku kt : string) (a t : User.t) :
  Req.user req = Some (Req.mkUser uid) →
  castObjectId uid = Some ku →
  Db.users db !! ku = Some a →
  castObjectId (Req.user_id (Req.params req)) = Some kt →
  Db.users db !! kt = Some t →
  deleteUser req db =
    if User.admin a || bool_decide (Req.user_id (Req.params req) = uid)
    then (mkResponse 200 (Msg "User successfully deleted from our platform"),
          Db.mk (delete kt (Db.users db)) (Db.games db))
    else (mkResponse 401 (Msg "Not allowed to delete this user"), db).
Proof.
  intros Hu Huid Hlook Htid Ht. unfold deleteUser. unfold_ops.
  rewrite Htid, Ht, Hu. simpl. rewrite Huid, Hlook. simpl.
  by destruct (User.admin a || bool_decide (Req.user_id (Req.params req) = uid)).
Qed.

(** The middleware lets a request with a valid token through, with the
    identity attached, and answers 401 otherwise. *)
Lemma guarded_auth_valid verify no_token invalid_token (h : Req.t → Handler)
    (req : Req.t) (db : Db.t) (token : string) (u : Req.ReqUser) :
  Req.x_auth_token req = Some token →
  verify token = Some u →
  guarded (auth verify no_token invalid_token) h req db = h (attach req u) db.
Proof. intros Ht Hv. unfold guarded, auth. by rewrite Ht, Hv. Qed.

Lemma guarded_auth_rejected verify no_token invalid_token (h : Req.t → Handler)
    (req : Req.t) (db : Db.t) :
  no_valid_token verify req →
  status (guarded (auth verify no_token invalid_token) h req db).1 = 401 ∧
  (guarded (auth verify no_token invalid_token) h req db).2 = db.
Proof.
  intros [Hn | (token & Ht & Hv)]; unfold guarded, auth.
  - by rewrite Hn.
  - by rewrite Ht, Hv.
Qed.

Lemma User_findOne_exists (email : string) (db : Db.t) (id : string) (u : User.t) :
  Db.users db !! id = Some u →
  User.email u = email →
  ∃ d, User_findOne email db = (Value (Some d), db).
Proof.
  intros Hlook Hemail. unfold User_findOne.
  destruct (head (filter (λ d : Doc User.t, User.email d.2 = email)
                         (map_to_list (Db.users db)))) as [d|] eqn:Hhead.
  - by exists d.
  - apply head_None in Hhead.
    apply (filter_nil_not_elem_of _ _ (id, u)) in Hhead; [|done].
    exfalso. apply Hhead. by apply elem_of_map_to_list.
Qed.

Global Instance date_desc_total : Total date_desc.
Proof. intros a b. unfold date_desc. lia. Qed.

Global Instance date_desc_trans : Transitive date_desc.
Proof. intros a b c. unfold date_desc. lia. Qed.

(** ** Completing a game *)

(** C2 (the code departs from it): completing a game twice should leave
    exactly one reference to it.  Alice, who has no completed game, completes
    Quiz2 and then completes Quiz1 twice: her list holds the reference to
    Quiz2 and no reference to Quiz1.  The callback given to [every] returns
    nothing, so the check passes on the empty list only. *)
Theorem complete_twice_after_other_game :
  let db1 := (completeGame (Sample.req Sample.u1 Sample.g2 "") Sample.db).2 in
  let db2 := (completeGame (Sample.req Sample.u1 Sample.g1 "") db1).2 in
  let db3 := (completeGame (Sample.req Sample.u1 Sample.g1 "") db2).2 in
  completedGames db1 Sample.u1 = [User.mkCompleted Sample.g2] ∧
  completedGames db3 Sample.u1 = [User.mkCompleted Sample.g2] ∧
  references Sample.g1 (completedGames db3 Sample.u1) = 0.
Proof. by vm_compute. Qed.

(** C3, counterexample: Alice completes Quiz1 and completes it again; the
    second call appends nothing. *)
Lemma second_completion_appends_nothing : ¬ every_call_appends.
Proof.
  intros H.
  pose (db1 := (completeGame (Sample.req Sample.u1 Sample.g1 "") Sample.db).2).
  specialize (H (Sample.req Sample.u1 Sample.g1 "") db1 Sample.u1 Sample.u1 Sample.g1
                (User.mk "a@x.com" (Some "$2a$05$Kq") false [User.mkCompleted Sample.g1] 1000)
                (Sample.quiz "Quiz1" 2 10)).
  vm_compute in H.
  specialize (H eq_refl eq_refl eq_refl eq_refl eq_refl). discriminate H.
Qed.

(** C3, amended: a call appends at most one reference, and only when the
    check over the existing entries passes; the first completion of a user
    whose list is empty appends the reference, and a call for a game the list
    already refers to appends nothing.  The user and the game are the
    documents the token's id and the path's id cast to, whatever the spelling
    of the path's id. *)
Theorem completeGame_append_gated (req : Req.t) (db : Db.t) (uid ku kg : string)
    (u : User.t) (g : Game.t) :
  Req.user req = Some (Req.mkUser uid) →
  castObjectId uid = Some ku →
  Db.users db !! ku = Some u →
  castObjectId (Req.game_id (Req.params req)) = Some kg →
  Db.games db !! kg = Some g →
  let gid := Req.game_id (Req.params req) in
  let after := completedGames (completeGame req db).2 ku in
  (after = User.games u ∨ after = User.games u ++ [User.mkCompleted kg]) ∧
  (after = User.games u ++ [User.mkCompleted kg] →
     every (completed_callback gid) (User.games u) = true) ∧
  (User.games u = [] → after = [User.mkCompleted kg]) ∧
  (User.mkCompleted kg ∈ User.games u → after = User.games u).
Proof.
  intros Hu Huid Hlook Hgid Hg gid after. subst after.
  rewrite (completeGame_found req db uid ku kg u g) by done.
  cbn zeta. rewrite every_completed_callback.
  case_bool_decide as Hnil; simpl; rewrite completedGames_insert; simpl.
  - rewrite Hnil. repeat split; auto.
    intros Hin. by apply elem_of_nil in Hin.
  - repeat split; auto.
    + intros Happ. apply (f_equal length) in Happ.
      rewrite length_app in Happ. simpl in Happ. lia.
    + done.
Qed.

Lemma completeGame_append_gated_witness :
  completedGames (completeGame (Sample.req Sample.u1 Sample.g1 "") Sample.db).2 Sample.u1
    = [User.mkCompleted Sample.g1].
Proof.
  pose proof (completeGame_append_gated (Sample.req Sample.u1 Sample.g1 "") Sample.db
                Sample.u1 Sample.u1 Sample.g1 Sample.alice (Sample.quiz "Quiz1" 2 10)
                eq_refl eq_refl eq_refl eq_refl eq_refl) as (_ & _ & H & _).
  exact (H eq_refl).
Defined.

(** ** Creating and deleting games *)

(** C5: a game-creation request of an authenticated user who is no admin is
    answered with the "only administrators" rejection once its body has passed
    validation, and whatever the body, no game is inserted: the store is left
    as it was. *)
Theorem createGame_non_admin_rejected (env : Env) (req : Req.t) (db : Db.t)
    (uid ku : string) (u : User.t) :
  Req.user req = Some (Req.mkUser uid) →
  castObjectId uid = Some ku →
  Db.users db !! ku = Some u →
  User.admin u = false →
  (Req.errors req = [] →
     (createGame env req db).1 =
       mkResponse 401 (Msg "Not authorizend. Only administrators can add new games.")) ∧
  (createGame env req db).2 = db.
Proof.
  intros Hu Huid Hlook Hadm. unfold createGame.
  case_bool_decide as Herr; simpl; [|by split].
  unfold_ops. rewrite Hu. simpl. rewrite Huid, Hlook. simpl. rewrite Hadm. simpl.
  by split.
Qed.

Lemma createGame_non_admin_rejected_witness :
  createGame Sample.env (Sample.req Sample.u1 "" "") Sample.db =
    (mkResponse 401 (Msg "Not authorizend. Only administrators can add new games."),
     Sample.db).
Proof.
  pose proof (createGame_non_admin_rejected Sample.env (Sample.req Sample.u1 "" "")
                Sample.db Sample.u1 Sample.u1 Sample.alice
                eq_refl eq_refl eq_refl eq_refl)
    as [Hres Hdb].
  specialize (Hres eq_refl).
  destruct (createGame Sample.env (Sample.req Sample.u1 "" "") Sample.db) as [r d].
  simpl in *. by subst.
Defined.

(** C8: when the record of the acting user is gone (the token's id names no
    stored user), a game-creation request whose body passed validation, and a
    game-deletion request whose target game exists, end in the internal-error
    response, and neither request ever changes the store: no game is
    inserted and none is deleted.  (A deletion whose target is missing is
    answered "Game not found" first: the target is checked before the
    caller's admin flag is read.) *)
Theorem missing_actor_internal_error (env : Env) (req : Req.t) (db : Db.t)
    (uid ku : string) :
  Req.user req = Some (Req.mkUser uid) →
  castObjectId uid = Some ku →
  Db.users db !! ku = None →
  (Req.errors req = [] → createGame env req db = (server_error, db)) ∧
  (∀ kg g, castObjectId (Req.game_id (Req.params req)) = Some kg →
           Db.games db !! kg = Some g →
           deleteGame req db = (server_error, db)) ∧
  (createGame env req db).2 = db ∧
  (deleteGame req db).2 = db.
Proof.
  intros Hu Huid Hlook. repeat split.
  - intros Herr. unfold createGame. rewrite Herr. simpl.
    unfold_ops. rewrite Hu. simpl. by rewrite Huid, Hlook.
  - intros kg g Hgid Hg. unfold deleteGame. unfold_ops.
    rewrite Hgid, Hg, Hu. simpl. by rewrite Huid, Hlook.
  - unfold createGame. case_bool_decide; simpl; [|done].
    unfold_ops. rewrite Hu. simpl. by rewrite Huid, Hlook.
  - unfold deleteGame. unfold_ops.
    destruct (castObjectId (Req.game_id (Req.params req))) as [kg|]; [|done].
    rewrite Hu. simpl. rewrite Huid.
    destruct (Db.games db !! kg); simpl; [|done].
    by rewrite Hlook.
Qed.

Lemma missing_actor_internal_error_witness :
  createGame Sample.env (Sample.req Sample.u3 Sample.g1 "") Sample.db =
    (server_error, Sample.db) ∧
  deleteGame (Sample.req Sample.u3 Sample.g1 "") Sample.db = (server_error, Sample.db).
Proof.
  pose proof (missing_actor_internal_error Sample.env (Sample.req Sample.u3 Sample.g1 "")
                Sample.db Sample.u3 Sample.u3 eq_refl eq_refl eq_refl)
    as (Hc & Hd & _).
  split; [exact (Hc eq_refl)|].
  exact (Hd Sample.g1 (Sample.quiz "Quiz1" 2 10) eq_refl eq_refl).
Defined.

(** ** Missing targets *)

(** C7: in every operation that names its target by id (reading a game,
    completing a game, deleting a game, deleting a user) a target that does
    not exist (the id casts to no ObjectId, or to one no document has) is
    answered "not found", status 404, whoever the authenticated caller is and
    whether or not their own record exists or is an admin's; the store is not
    changed.  The permission rejection, status 401, is therefore given only
    for a target that exists. *)
Theorem missing_target_not_found (req : Req.t) (db : Db.t) (uid : string) :
  Req.user req = Some (Req.mkUser uid) →
  (absent (Db.games db) (Req.game_id (Req.params req)) →
     getGame req db = (not_found_game, db) ∧
     completeGame req db = (not_found_game, db) ∧
     deleteGame req db = (not_found_game, db)) ∧
  (absent (Db.users db) (Req.user_id (Req.params req)) →
     deleteUser req db = (not_found_user, db)) ∧
  status not_found_game = 404 ∧ status not_found_user = 404 ∧
  (status (deleteGame req db).1 = 401 →
     ¬ absent (Db.games db) (Req.game_id (Req.params req))) ∧
  (status (deleteUser req db).1 = 401 →
     ¬ absent (Db.users db) (Req.user_id (Req.params req))).
Proof.
  intros Hu.
  assert (Hgames : absent (Db.games db) (Req.game_id (Req.params req)) →
     getGame req db = (not_found_game, db) ∧
     completeGame req db = (not_found_game, db) ∧
     deleteGame req db = (not_found_game, db)).
  { unfold absent. intros Hg. repeat split.
    - unfold getGame. unfold_ops.
      destruct (castObjectId (Req.game_id (Req.params req))); [|done].
      by rewrite Hg.
    - unfold completeGame. unfold_ops. rewrite Hu. simpl.
      destruct (castObjectId uid); [|done]. simpl.
      destruct (castObjectId (Req.game_id (Req.params req))); [|done].
      by rewrite Hg.
    - unfold deleteGame. unfold_ops.
      destruct (castObjectId (Req.game_id (Req.params req))); [|done].
      rewrite Hg, Hu. simpl. by destruct (castObjectId uid). }
  assert (Husers : absent (Db.users db) (Req.user_id (Req.params req)) →
     deleteUser req db = (not_found_user, db)).
  { unfold absent. intros Ht. unfold deleteUser. unfold_ops.
    destruct (castObjectId (Req.user_id (Req.params req))); [|done].
    rewrite Ht, Hu. simpl. by destruct (castObjectId uid). }
  repeat split; try done; try tauto.
  - intros Hst Habs. destruct (Hgames Habs) as (_ & _ & Hdel).
    rewrite Hdel in Hst. discriminate Hst.
  - intros Hst Habs. rewrite (Husers Habs) in Hst. discriminate Hst.
Qed.

Lemma missing_target_not_found_witness :
  deleteGame (Sample.req Sample.u1 Sample.g3 Sample.u3) Sample.db = (not_found_game, Sample.db) ∧
  deleteUser (Sample.req Sample.u1 Sample.g3 Sample.u3) Sample.db = (not_found_user, Sample.db).
Proof.
  pose proof (missing_target_not_found (Sample.req Sample.u1 Sample.g3 Sample.u3)
                Sample.db Sample.u1 eq_refl) as (Hg & Hu & _).
  destruct (Hg eq_refl) as (_ & _ & Hdel).
  split; [exact Hdel | exact (Hu eq_refl)].
Defined.

(** ** Deleting a user *)

(** C6 (the code departs from it): a user may delete their own account.
    Alice, who is no admin, asks to delete her own account and spells her id
    in the path with upper-case hex digits.  The handler finds her record
    under that id, so the target is herself, and yet it refuses the request
    with the "not allowed" rejection and leaves her stored: the test compares
    the spelling in the path with the id in the token.  With the id spelled
    as in the token the same request succeeds. *)
Theorem deleteUser_self_other_spelling :
  User_findById Sample.U1 Sample.db = (Value (Some (Sample.u1, Sample.alice)), Sample.db) ∧
  deleteUser (Sample.req Sample.u1 "" Sample.U1) Sample.db =
    (mkResponse 401 (Msg "Not allowed to delete this user"), Sample.db) ∧
  (deleteUser (Sample.req Sample.u1 "" Sample.u1) Sample.db).1 =
    mkResponse 200 (Msg "User successfully deleted from our platform").
Proof. by vm_compute. Qed.

(** ** Registration *)

(** C9: a registration request whose email is the email of a stored user is
    answered with status 400, always; once its body has passed validation the
    answer is the "User already exists" conflict; no user is inserted: the
    store is left as it was. *)
Theorem register_existing_email_conflict (SECRET : string)
    (bcrypt_hash : string → string → string)
    (jwt_sign : JwtPayload → string → SignOptions → string)
    (env : Env) (req : Req.t) (db : Db.t) (id : string) (u : User.t) :
  Db.users db !! id = Some u →
  User.email u = Req.email (Req.body req) →
  status (register SECRET bcrypt_hash jwt_sign env req db).1 = 400 ∧
  (Req.errors req = [] →
     (register SECRET bcrypt_hash jwt_sign env req db).1 =
       mkResponse 400 (Errors ["User already exists"])) ∧
  (register SECRET bcrypt_hash jwt_sign env req db).2 = db.
Proof.
  intros Hlook Hemail.
  destruct (User_findOne_exists _ db id u Hlook Hemail) as [d Hd].
  unfold register. case_bool_decide as Herr; simpl; [|done].
  unfold try_catch, mbind, M_bind, send. by rewrite Hd.
Qed.

Lemma register_existing_email_conflict_witness :
  register "s3cret" (λ p s, s +:+ p) (λ _ _ _, "token") Sample.env
           (Sample.raw None "" "") Sample.db =
    (mkResponse 400 (Errors ["User already exists"]), Sample.db).
Proof.
  pose proof (register_existing_email_conflict "s3cret" (λ p s, s +:+ p) (λ _ _ _, "token")
                Sample.env (Sample.raw None "" "") Sample.db Sample.u1 Sample.alice
                eq_refl eq_refl) as (_ & Hres & Hdb).
  specialize (Hres eq_refl).
  destruct (register _ _ _ _ _ _) as [r d]. simpl in *. by subst.
Defined.

(** A new email: the user is stored with the hashed password and no admin
    right, and the answer carries the token signed over [{ user: { id } }]
    with [expiresIn: "5d"]; logging in signs the same payload with
    [expiresIn: "5 days"]. *)
Example register_then_login :
  let hash := λ p s : string, s +:+ p in
  let compare := λ p h : string, bool_decide (h = "$2a$05$salt" +:+ p) in
  let sign := λ (p : JwtPayload) (secret : string) (o : SignOptions),
                Req.id (payload_user p) +:+ "/" +:+ expiresIn o in
  let req := Req.mk None (Req.mkParams "" "")
               (Req.mkBody "b@x.com" "secret2" "" None None None None []) None [] in
  let '(res, db') := register "s3cret" hash sign Sample.env req Sample.db in
  res = mkResponse 200 (Token "5f1d7f3a9c1b2a00123456a4/5d") ∧
  Db.users db' !! "5f1d7f3a9c1b2a00123456a4" =
    Some (User.mk "b@x.com" (Some "$2a$05$saltsecret2") false [] 40) ∧
  (login "s3cret" compare sign req db').1 =
    mkResponse 200 (Token "5f1d7f3a9c1b2a00123456a4/5 days").
Proof. by vm_compute. Qed.

(** ** Listing the games *)

(** C10: the game list needs no authentication, since the route runs no
    middleware and answers any request, with or without a token; it returns
    all games of the store, newest first (every game's date is at least
    the date of each game after it).  The [order] field plays no part: for
    three stored games the list comes with orders 1, 3, 2. *)
Theorem getGames_newest_first :
  (∀ (mw : Middleware) (env : Env) (req : Req.t) (db : Db.t),
     ∃ l, games_router mw env GET_games req db = (mkResponse 200 (GamesJson l), db) ∧
          l ≡ₚ map_to_list (Db.games db) ∧
          StronglySorted date_desc l) ∧
  (∃ l, (getGames (Sample.raw None "" "") Sample.db3).1 = mkResponse 200 (GamesJson l) ∧
        (λ d : Doc Game.t, Game.order d.2) <$> l = [Some 1; Some 3; Some 2]%Z).
Proof.
  split.
  - intros mw env req db. eexists. split; [reflexivity|]. split.
    + apply merge_sort_Permutation.
    + apply StronglySorted_merge_sort; apply _.
  - eexists. split; by vm_compute.
Qed.

(** ** Permission rejections and their status *)

(** C4, counterexample: Alice, who is no admin, asks to create a game with her
    valid token and is answered with status 401, the status of the answer to
    the same request sent without a token. *)
Lemma non_admin_rejection_has_unauthorized_status : ¬ forbidden_status_distinct.
Proof.
  intros H.
  destruct (H "s3cret" (λ p s, s +:+ p) (λ _ _, true) (λ _ _ _, "token")
              Sample.verify "No token" "Token is not valid"
              Sample.env (Sample.raw (Some "alice-token") Sample.g1 Sample.u2)
              (Sample.raw None Sample.g1 Sample.u2) Sample.db
              "alice-token" Sample.u1 Sample.u1 Sample.g1 Sample.u2 Sample.alice
              eq_refl eq_refl eq_refl eq_refl eq_refl (or_introl eq_refl))
    as (Hcreate & _ & _).
  apply (Hcreate eq_refl). by vm_compute.
Qed.

(** C4, amended: the rejection given to a user with a valid token who is no
    admin (creating a game, deleting a game, deleting another user) carries
    status 401 and a [{ msg }] body and leaves the store as it was; 401 is
    also the status the middleware gives a request [req'] whose token is
    missing or invalid. *)
Theorem permission_rejection_is_401 (SECRET : string)
    (bcrypt_hash : string → string → string)
    (bcrypt_compare : string → string → bool)
    (jwt_sign : JwtPayload → string → SignOptions → string)
    (verify : string → option Req.ReqUser) (no_token invalid_token : string)
    (env : Env) (req req' : Req.t) (db : Db.t) (token uid ku kg kt : string)
    (a : User.t) :
  let mw := auth verify no_token invalid_token in
  let users := users_router SECRET bcrypt_hash bcrypt_compare jwt_sign mw in
  Req.x_auth_token req = Some token →
  verify token = Some (Req.mkUser uid) →
  castObjectId uid = Some ku →
  Db.users db !! ku = Some a →
  User.admin a = false →
  no_valid_token verify req' →
  (Req.errors req = [] →
     games_router mw env POST_games req db =
       (mkResponse 401 (Msg "Not authorizend. Only administrators can add new games."), db)) ∧
  (castObjectId (Req.game_id (Req.params req)) = Some kg →
   is_Some (Db.games db !! kg) →
     games_router mw env DELETE_games_id req db =
       (mkResponse 401 (Msg "Not allowed to delete this game"), db)) ∧
  (castObjectId (Req.user_id (Req.params req)) = Some kt →
   is_Some (Db.users db !! kt) →
   Req.user_id (Req.params req) ≠ uid →
     users env DELETE_users_id req db =
       (mkResponse 401 (Msg "Not allowed to delete this user"), db)) ∧
  status (games_router mw env POST_games req' db).1 = 401 ∧
  status (games_router mw env DELETE_games_id req' db).1 = 401 ∧
  status (users env DELETE_users_id req' db).1 = 401.
Proof.
  intros mw users Ht Hv Huid Hlook Hadm Hno. subst users mw. simpl.
  rewrite !(guarded_auth_valid _ _ _ _ req db token _ Ht Hv).
  repeat split.
  - intros Herr. by apply (createGame_non_admin env _ db uid ku a).
  - intros Hgid [g Hg].
    rewrite (deleteGame_found (attach req (Req.mkUser uid)) db uid ku kg a g) by done.
    by rewrite Hadm.
  - intros Htid [t Htg] Hne.
    rewrite (deleteUser_found (attach req (Req.mkUser uid)) db uid ku kt a t) by done.
    simpl. rewrite Hadm. simpl. by case_bool_decide.
  - by apply guarded_auth_rejected.
  - by apply guarded_auth_rejected.
  - by apply guarded_auth_rejected.
Qed.

Lemma permission_rejection_is_401_witness :
  games_router Sample.auth Sample.env POST_games
               (Sample.raw (Some "alice-token") Sample.g1 Sample.u2) Sample.db =
    (mkResponse 401 (Msg "Not authorizend. Only administrators can add new games."),
     Sample.db).
Proof.
  pose proof (permission_rejection_is_401 "s3cret" (λ p s, s +:+ p) (λ _ _, true)
                (λ _ _ _, "token") Sample.verify "No token" "Token is not valid"
                Sample.env (Sample.raw (Some "alice-token") Sample.g1 Sample.u2)
                (Sample.raw None Sample.g1 Sample.u2) Sample.db
                "alice-token" Sample.u1 Sample.u1 Sample.g1 Sample.u2 Sample.alice
                eq_refl eq_refl eq_refl eq_refl eq_refl (or_introl eq_refl))
    as (Hcreate & _).
  exact (Hcreate eq_refl).
Defined.

(** * Further properties of the handlers *)

(** ** Helper equations *)

Lemma createGame_admin (env : Env) (req : Req.t) (db : Db.t) (uid ku : string) (a : User.t) :
  Req.user req = Some (Req.mkUser uid) →
  castObjectId uid = Some ku →
  Db.users db !! ku = Some a →
  User.admin a = true →
  Req.errors req = [] →
  createGame env req db =
    let b := Req.body req in
    let g := Game.mk (Req.title b) (Req.icon b) (Req.order b) None
                     (Req.questions b) (now env) in
    if negb (Game.valid g) then (server_error, db)
    else match Db.games db !! newId env with
         | Some _ => (server_error, db)
         | None => (mkResponse 200 (GameJson (newId env, g)),
                    Db.mk (Db.users db) (<[newId env := g]> (Db.games db)))
         end.
Proof.
  intros Hu Huid Hlook Hadm Herr. unfold createGame. rewrite Herr. simpl.
  unfold_ops. rewrite Hu. simpl. rewrite Huid, Hlook. simpl. rewrite Hadm. simpl.
  destruct (Game.valid _); simpl; [|done].
  by destruct (Db.games db !! newId env).
Qed.

Lemma getGame_run (req : Req.t) (db : Db.t) :
  getGame req db =
    (match castObjectId (Req.game_id (Req.params req)) with
     | Some kg => match Db.games db !! kg with
                  | Some g => mkResponse 200 (GameJson (kg, g))
                  | None => not_found_game
                  end
     | None => not_found_game
     end, db).
Proof.
  unfold getGame. unfold_ops.
  destruct (castObjectId (Req.game_id (Req.params req))) as [kg|]; [|done].
  by destruct (Db.games db !! kg).
Qed.

Lemma User_findOne_None (email : string) (db : Db.t) :
  (∀ id u, Db.users db !! id = Some u → User.email u ≠ email) →
  User_findOne email db = (Value None, db).
Proof.
  intros Hnone. unfold User_findOne.
  destruct (head _) as [d|] eqn:Hhead; [|done].
  apply head_Some_elem_of, list_elem_of_filter in Hhead as [Hemail Hin].
  destruct d as [id u]. apply elem_of_map_to_list in Hin.
  by destruct (Hnone id u Hin).
Qed.

Lemma User_findOne_Some (email : string) (db db' : Db.t) (d : Doc User.t) :
  User_findOne email db = (Value (Some d), db') →
  Db.users db !! d.1 = Some d.2 ∧ User.email d.2 = email.
Proof.
  unfold User_findOne. intros [= Hhead _].
  apply head_Some_elem_of, list_elem_of_filter in Hhead as [Hemail Hin].
  destruct d as [id u]. by apply elem_of_map_to_list in Hin.
Qed.

Lemma User_findOne_state (email : string) (db : Db.t) :
  ∃ o, User_findOne email db = (Value o, db).
Proof. by eexists. Qed.

(** Either the user and the game of a completion request are both found, or
    the request is answered without a write. *)
Lemma completeGame_cases (req : Req.t) (db : Db.t) :
  (∃ r, completeGame req db = (r, db)) ∨
  (∃ uid ku kg u g,
     Req.user req = Some (Req.mkUser uid) ∧ castObjectId uid = Some ku ∧
     Db.users db !! ku = Some u ∧
     castObjectId (Req.game_id (Req.params req)) = Some kg ∧
     Db.games db !! kg = Some g).
Proof.
  destruct (Req.user req) as [[uid]|] eqn:Hu;
    [|left; eexists; unfold completeGame; unfold_ops; by rewrite Hu].
  destruct (castObjectId uid) as [ku|] eqn:Huid;
    [|left; eexists; unfold completeGame; unfold_ops; rewrite Hu; simpl; by rewrite Huid].
  destruct (castObjectId (Req.game_id (Req.params req))) as [kg|] eqn:Hgid;
    [|left; eexists; unfold completeGame; unfold_ops; rewrite Hu; simpl;
      by rewrite Huid, Hgid].
  destruct (Db.games db !! kg) as [g|] eqn:Hg;
    [|left; eexists; unfold completeGame; unfold_ops; rewrite Hu; simpl;
      by rewrite Huid, Hgid, Hg].
  destruct (Db.users db !! ku) as [u|] eqn:Hlook;
    [|left; eexists; unfold completeGame; unfold_ops; rewrite Hu; simpl;
      by rewrite Huid, Hlook, Hgid, Hg].
  right. by exists uid, ku, kg, u, g.
Qed.

(** ** Creating, reading and deleting games *)

(** X1: An admin's creation request with a valid body and a fresh id is answered
    with the stored game; the game carries the request's title, icon, order
    and questions, the creation date, and no theory ([startText] and
    [endText] are not kept); the users are untouched, and reading the game by
    its id returns it. *)
Theorem createGame_admin_then_getGame (env : Env) (req req' : Req.t) (db : Db.t)
    (uid ku : string) (a : User.t) :
  let b := Req.body req in
  let g := Game.mk (Req.title b) (Req.icon b) (Req.order b) None
                   (Req.questions b) (now env) in
  Req.user req = Some (Req.mkUser uid) →
  castObjectId uid = Some ku →
  Db.users db !! ku = Some a →
  User.admin a = true →
  Req.errors req = [] →
  Game.valid g = true →
  Db.games db !! newId env = None →
  castObjectId (Req.game_id (Req.params req')) = Some (newId env) →
  let db' := (createGame env req db).2 in
  (createGame env req db).1 = mkResponse 200 (GameJson (newId env, g)) ∧
  Db.users db' = Db.users db ∧
  Db.games db' = <[newId env := g]> (Db.games db) ∧
  getGame req' db' = (mkResponse 200 (GameJson (newId env, g)), db').
Proof.
  intros b g Hu Huid Hlook Hadm Herr Hvalid Hfresh Hparam db'. subst db'.
  rewrite (createGame_admin env req db uid ku a) by done.
  cbn zeta. fold b. fold g. rewrite Hvalid, Hfresh. simpl.
  repeat split. rewrite getGame_run, Hparam. simpl.
  by rewrite lookup_insert_eq.
Qed.

Lemma createGame_admin_then_getGame_witness :
  getGame (Sample.req Sample.u1 (newId Sample.env) "")
          (createGame Sample.env (Sample.req Sample.u2 "" "") Sample.db).2 =
    (mkResponse 200
       (GameJson (newId Sample.env, Game.mk "Quiz4" None (Some 4%Z) None [] 40)),
     (createGame Sample.env (Sample.req Sample.u2 "" "") Sample.db).2).
Proof.
  apply (createGame_admin_then_getGame Sample.env (Sample.req Sample.u2 "" "")
           (Sample.req Sample.u1 (newId Sample.env) "") Sample.db
           Sample.u2 Sample.u2 Sample.root
           eq_refl eq_refl eq_refl eq_refl eq_refl eq_refl eq_refl eq_refl).
Defined.

(** X2: An admin's creation request that passed the body validation but cannot be
    saved (a required path of the schema is empty, as with a question without
    content, or the id is taken) is answered "Server error" and stores
    nothing. *)
Theorem createGame_admin_save_fails (env : Env) (req : Req.t) (db : Db.t)
    (uid ku : string) (a : User.t) :
  let b := Req.body req in
  let g := Game.mk (Req.title b) (Req.icon b) (Req.order b) None
                   (Req.questions b) (now env) in
  Req.user req = Some (Req.mkUser uid) →
  castObjectId uid = Some ku →
  Db.users db !! ku = Some a →
  User.admin a = true →
  Req.errors req = [] →
  Game.valid g = false ∨ is_Some (Db.games db !! newId env) →
  createGame env req db = (server_error, db).
Proof.
  intros b g Hu Huid Hlook Hadm Herr Hfail.
  rewrite (createGame_admin env req db uid ku a) by done.
  cbn zeta. fold b. fold g.
  destruct Hfail as [Hinv | [g' Hg']].
  - by rewrite Hinv.
  - rewrite Hg'. by destruct (Game.valid g).
Qed.

Lemma createGame_admin_save_fails_witness :
  createGame Sample.env
    (Req.mk (Some "t") (Req.mkParams "" "")
            (Req.mkBody "" "" "Quiz5" None None None None [Question.mk None "" []])
            (Some (Req.mkUser Sample.u2)) [])
    Sample.db = (server_error, Sample.db).
Proof.
  apply (createGame_admin_save_fails Sample.env
           (Req.mk (Some "t") (Req.mkParams "" "")
                   (Req.mkBody "" "" "Quiz5" None None None None [Question.mk None "" []])
                   (Some (Req.mkUser Sample.u2)) [])
           Sample.db Sample.u2 Sample.u2 Sample.root
           eq_refl eq_refl eq_refl eq_refl eq_refl).
  by left.
Defined.

(** X3: Whatever the request, game creation leaves the users as they are and
    every stored game in place: it never overwrites or removes a game, and
    the only id it can add is the new one. *)
Theorem createGame_keeps_store (env : Env) (req : Req.t) (db : Db.t) :
  let db' := (createGame env req db).2 in
  Db.users db' = Db.users db ∧
  (∀ id g, Db.games db !! id = Some g → Db.games db' !! id = Some g) ∧
  (∀ id, id ≠ newId env → Db.games db' !! id = Db.games db !! id).
Proof.
  unfold createGame. unfold_ops.
  repeat (case_match; simpl in *; simplify_eq); repeat split; auto.
  - intros id g Hg. destruct (decide (id = newId env)) as [->|Hne]; [congruence|].
    by rewrite lookup_insert_ne.
  - intros id Hne. by rewrite lookup_insert_ne.
Qed.

(** X4: When an admin deletes a game that exists, the answer is the success
    message, the game is gone (reading it gives "Game not found"), every other
    game is kept, and the users are untouched: the references to the game in
    their completed lists stay. *)
Theorem deleteGame_admin_then_getGame (req req' : Req.t) (db : Db.t)
    (uid ku kg : string) (a : User.t) (g : Game.t) :
  Req.user req = Some (Req.mkUser uid) →
  castObjectId uid = Some ku →
  Db.users db !! ku = Some a →
  User.admin a = true →
  castObjectId (Req.game_id (Req.params req)) = Some kg →
  Db.games db !! kg = Some g →
  castObjectId (Req.game_id (Req.params req')) = Some kg →
  let db' := (deleteGame req db).2 in
  (deleteGame req db).1 =
    mkResponse 200 (Msg "Game successfully deleted from our platform") ∧
  getGame req' db' = (not_found_game, db') ∧
  (∀ id, id ≠ kg → Db.games db' !! id = Db.games db !! id) ∧
  (∀ u, completedGames db' u = completedGames db u).
Proof.
  intros Hu Huid Hlook Hadm Hgid Hg Hparam db'. subst db'.
  rewrite (deleteGame_found req db uid ku kg a g) by done. rewrite Hadm. simpl.
  repeat split.
  - rewrite getGame_run, Hparam. simpl. by rewrite lookup_delete_eq.
  - intros id Hne. by rewrite lookup_delete_ne.
Qed.

Lemma deleteGame_admin_then_getGame_witness :
  getGame (Sample.req Sample.u1 Sample.g1 "")
          (deleteGame (Sample.req Sample.u2 Sample.g1 "") Sample.db).2 =
    (not_found_game, (deleteGame (Sample.req Sample.u2 Sample.g1 "") Sample.db).2).
Proof.
  apply (deleteGame_admin_then_getGame (Sample.req Sample.u2 Sample.g1 "")
           (Sample.req Sample.u1 Sample.g1 "") Sample.db
           Sample.u2 Sample.u2 Sample.g1 Sample.root
           (Sample.quiz "Quiz1" 2 10) eq_refl eq_refl eq_refl eq_refl eq_refl eq_refl eq_refl).
Defined.

(** X5: Whatever the request, game deletion leaves the users as they are and can
    remove no game but the one whose ObjectId the path's id casts to,
    whatever the spelling of that id; when the id does not cast, no game is
    removed. *)
Theorem deleteGame_only_target (req : Req.t) (db : Db.t) :
  let db' := (deleteGame req db).2 in
  Db.users db' = Db.users db ∧
  (∀ id, castObjectId (Req.game_id (Req.params req)) ≠ Some id →
         Db.games db' !! id = Db.games db !! id).
Proof.
  unfold deleteGame. unfold_ops.
  repeat (case_match; simpl in *; simplify_eq); repeat split; auto.
  intros id Hne.
  match goal with
  | H : _ <$> _ = Some ?d |- context [delete ?d.1 _] =>
      apply fmap_Some in H as (? & _ & ->)
  end.
  simpl. rewrite lookup_delete_ne; [done|]. congruence.
Qed.

(** ** Completing a game, further *)

(** X6: A completion request sent twice does what it does once: the second call
    gives the same answer and the same store. *)
Theorem completeGame_idempotent (req : Req.t) (db : Db.t) :
  completeGame req (completeGame req db).2 = completeGame req db.
Proof.
  destruct (completeGame_cases req db)
    as [[r Hr] | (uid & ku & kg & u & g & Hu & Huid & Hlook & Hgid & Hg)].
  - rewrite Hr. simpl. exact Hr.
  - rewrite (completeGame_found req db uid ku kg u g) by done. cbn zeta.
    case_bool_decide as Hnil; simpl.
    + erewrite (completeGame_found req _ uid ku kg _ g); simpl; try done;
        [|by rewrite lookup_insert_eq].
      rewrite insert_insert_eq.
      rewrite bool_decide_eq_false_2; [done|].
      simpl. by destruct (User.games u).
    + erewrite (completeGame_found req _ uid ku kg u g); simpl; try done;
        [|by rewrite lookup_insert_eq].
      rewrite insert_insert_eq. by rewrite bool_decide_eq_false_2.
Qed.

(** X7: A completion request of a user whose record is gone, for a game that
    exists, is answered "Server error" and writes nothing. *)
Theorem completeGame_missing_user (req : Req.t) (db : Db.t) (uid ku kg : string) (g : Game.t) :
  Req.user req = Some (Req.mkUser uid) →
  castObjectId uid = Some ku →
  Db.users db !! ku = None →
  castObjectId (Req.game_id (Req.params req)) = Some kg →
  Db.games db !! kg = Some g →
  completeGame req db = (server_error, db).
Proof.
  intros Hu Huid Hlook Hgid Hg. unfold completeGame. unfold_ops.
  rewrite Hu. simpl. by rewrite Huid, Hlook, Hgid, Hg.
Qed.

Lemma completeGame_missing_user_witness :
  completeGame (Sample.req Sample.u3 Sample.g1 "") Sample.db = (server_error, Sample.db).
Proof.
  apply (completeGame_missing_user (Sample.req Sample.u3 Sample.g1 "") Sample.db
           Sample.u3 Sample.u3 Sample.g1 (Sample.quiz "Quiz1" 2 10)
           eq_refl eq_refl eq_refl eq_refl eq_refl).
Defined.

(** X8: Whatever the request, completing a game leaves the games as they are,
    adds and removes no user, changes no user but the caller (the user whose
    ObjectId the token's id casts to), and of the caller changes nothing but
    the completed list: email, password, admin flag and date stay. *)
Theorem completeGame_frame (req : Req.t) (db : Db.t) (id : string) :
  let db' := (completeGame req db).2 in
  Db.games db' = Db.games db ∧
  match Db.users db !! id with
  | None => Db.users db' !! id = None
  | Some u =>
      ∃ u', Db.users db' !! id = Some u' ∧
            User.email u' = User.email u ∧ User.password u' = User.password u ∧
            User.admin u' = User.admin u ∧ User.date u' = User.date u ∧
            ((∀ uid, Req.user req = Some (Req.mkUser uid) →
                     castObjectId uid ≠ Some id) → u' = u)
  end.
Proof.
  cbn zeta.
  destruct (completeGame_cases req db)
    as [[r Hr] | (uid & ku & kg & u & g & Hu & Huid & Hlook & Hgid & Hg)].
  - rewrite Hr. simpl. split; [done|].
    destruct (Db.users db !! id) eqn:E; [|done]. by eexists.
  - rewrite (completeGame_found req db uid ku kg u g) by done. cbn zeta. simpl.
    split; [done|].
    destruct (decide (id = ku)) as [->|Hne].
    + rewrite Hlook, lookup_insert_eq. eexists. split; [done|].
      case_bool_decide; simpl; repeat split; auto;
        intros Hc; by destruct (Hc uid Hu).
    + rewrite lookup_insert_ne by done.
      destruct (Db.users db !! id) eqn:E; [|done]. by eexists.
Qed.

(** ** Users: registration and login *)

Lemma register_cases (SECRET : string) (bcrypt_hash : string → string → string)
    (jwt_sign : JwtPayload → string → SignOptions → string)
    (env : Env) (req : Req.t) (db : Db.t) :
  register SECRET bcrypt_hash jwt_sign env req db =
    if negb (bool_decide (Req.errors req = []))
    then (mkResponse 400 (Errors (Req.errors req)), db)
    else match head (filter (λ d : Doc User.t, User.email d.2 = Req.email (Req.body req))
                            (map_to_list (Db.users db))) with
         | Some _ => (mkResponse 400 (Errors ["User already exists"]), db)
         | None =>
             if negb (User.valid (new_user bcrypt_hash env req)) then (server_error, db)
             else match Db.users db !! newId env with
                  | Some _ => (server_error, db)
                  | None =>
                      (mkResponse 200
                         (Token (jwt_sign (mkPayload (Req.mkUser (newId env))) SECRET
                                          (mkSignOptions "5d"))),
                       Db.mk (<[newId env := new_user bcrypt_hash env req]> (Db.users db))
                             (Db.games db))
                  end
         end.
Proof.
  unfold register. destruct (negb _); [done|]. unfold_ops.
  destruct (head _); [done|]. simpl. fold (new_user bcrypt_hash env req).
  destruct (User.valid _); simpl; [|done].
  by destruct (Db.users db !! newId env).
Qed.

(** What a registration answered with status 200 has done. *)
Lemma register_200_inv (SECRET : string) (bcrypt_hash : string → string → string)
    (jwt_sign : JwtPayload → string → SignOptions → string)
    (env : Env) (req : Req.t) (db : Db.t) :
  status (register SECRET bcrypt_hash jwt_sign env req db).1 = 200 →
  Req.errors req = [] ∧
  (∀ id u, Db.users db !! id = Some u → User.email u ≠ Req.email (Req.body req)) ∧
  Db.users db !! newId env = None ∧
  register SECRET bcrypt_hash jwt_sign env req db =
    (mkResponse 200
       (Token (jwt_sign (mkPayload (Req.mkUser (newId env))) SECRET (mkSignOptions "5d"))),
     Db.mk (<[newId env := new_user bcrypt_hash env req]> (Db.users db)) (Db.games db)).
Proof.
  rewrite (register_cases SECRET bcrypt_hash jwt_sign).
  case_bool_decide as Herr; simpl; [|discriminate].
  destruct (head _) as [d|] eqn:Hhead; simpl; [discriminate|].
  destruct (User.valid _); simpl; [|discriminate].
  destruct (Db.users db !! newId env) eqn:Hnew; simpl; [discriminate|].
  intros _. repeat split; [done|].
  intros id u Hlook Hemail.
  destruct (User_findOne_exists _ db id u Hlook Hemail) as [d Hd].
  unfold User_findOne in Hd. congruence.
Qed.

Lemma login_cases (SECRET : string) (bcrypt_compare : string → string → bool)
    (jwt_sign : JwtPayload → string → SignOptions → string)
    (req : Req.t) (db : Db.t) :
  login SECRET bcrypt_compare jwt_sign req db =
    (if negb (bool_decide (Req.errors req = []))
     then mkResponse 400 (Errors (Req.errors req))
     else match head (filter (λ d : Doc User.t, User.email d.2 = Req.email (Req.body req))
                             (map_to_list (Db.users db))) with
          | None => mkResponse 400 (Errors ["Invalid Credentials"])
          | Some user =>
              match User.password user.2 with
              | None => server_error
              | Some hashed =>
                  if negb (bcrypt_compare (Req.password (Req.body req)) hashed)
                  then mkResponse 400 (Errors ["Invalid Credentials"])
                  else mkResponse 200
                         (Token (jwt_sign (mkPayload (Req.mkUser (_id user))) SECRET
                                          (mkSignOptions "5 days")))
              end
          end, db).
Proof.
  unfold login. destruct (negb _); [done|]. unfold_ops.
  destruct (head _) as [user|]; [|done]. simpl.
  destruct (User.password user.2); simpl; [|done].
  by destruct (bcrypt_compare _ _).
Qed.

(** X9: A registration that is answered with status 200 has stored one new user
    under the new id: with the request's email, the bcrypt hash of the
    password (not the password), no admin right and no completed game; every
    other user and all games are as before, and the token is signed over the
    new id with [expiresIn: "5d"]. *)
Theorem register_success_stores_user (SECRET : string) (bcrypt_hash : string → string → string)
    (jwt_sign : JwtPayload → string → SignOptions → string)
    (env : Env) (req : Req.t) (db : Db.t) :
  status (register SECRET bcrypt_hash jwt_sign env req db).1 = 200 →
  let db' := (register SECRET bcrypt_hash jwt_sign env req db).2 in
  (register SECRET bcrypt_hash jwt_sign env req db).1 =
    mkResponse 200
      (Token (jwt_sign (mkPayload (Req.mkUser (newId env))) SECRET (mkSignOptions "5d"))) ∧
  Db.users db !! newId env = None ∧
  Db.users db' !! newId env =
    Some (User.mk (Req.email (Req.body req))
                  (Some (bcrypt_hash (Req.password (Req.body req)) (salt env)))
                  false [] (now env)) ∧
  (∀ id, id ≠ newId env → Db.users db' !! id = Db.users db !! id) ∧
  Db.games db' = Db.games db.
Proof.
  intros H200. destruct (register_200_inv SECRET bcrypt_hash jwt_sign env req db H200) as (_ & _ & Hnew & ->).
  simpl. repeat split; [done| |].
  - by rewrite lookup_insert_eq.
  - intros id Hne. by rewrite lookup_insert_ne.
Qed.

(** X10: After a registration answered with status 200, a registration with the
    same email (whatever its password, id or time) that passed validation is
    answered "User already exists" and stores nothing. *)
Theorem register_twice_conflict (SECRET : string) (bcrypt_hash : string → string → string)
    (jwt_sign : JwtPayload → string → SignOptions → string)
    (env env' : Env) (req req' : Req.t) (db : Db.t) :
  status (register SECRET bcrypt_hash jwt_sign env req db).1 = 200 →
  Req.email (Req.body req') = Req.email (Req.body req) →
  Req.errors req' = [] →
  let db' := (register SECRET bcrypt_hash jwt_sign env req db).2 in
  register SECRET bcrypt_hash jwt_sign env' req' db' =
    (mkResponse 400 (Errors ["User already exists"]), db').
Proof.
  intros H200 Hemail Herr.
  destruct (register_200_inv SECRET bcrypt_hash jwt_sign env req db H200) as (_ & _ & _ & ->). simpl.
  rewrite (register_cases SECRET bcrypt_hash jwt_sign), Herr. simpl.
  edestruct (User_findOne_exists (Req.email (Req.body req'))
               (Db.mk (<[newId env := new_user bcrypt_hash env req]> (Db.users db)) (Db.games db))
               (newId env) (new_user bcrypt_hash env req)) as [d Hd].
  - simpl. by rewrite lookup_insert_eq.
  - by rewrite Hemail.
  - unfold User_findOne in Hd. injection Hd as Hd. by rewrite Hd.
Qed.

(** X11: After a registration answered with status 200, logging in with the same
    email and password is answered with a token signed over the id of the
    registered user with [expiresIn: "5 days"], provided bcrypt accepts the
    password against its own hash; the login stores nothing. *)
Theorem login_after_register (SECRET : string) (bcrypt_hash : string → string → string)
    (bcrypt_compare : string → string → bool)
    (jwt_sign : JwtPayload → string → SignOptions → string)
    (env : Env) (req req' : Req.t) (db : Db.t) :
  bcrypt_compare (Req.password (Req.body req))
                 (bcrypt_hash (Req.password (Req.body req)) (salt env)) = true →
  status (register SECRET bcrypt_hash jwt_sign env req db).1 = 200 →
  Req.email (Req.body req') = Req.email (Req.body req) →
  Req.password (Req.body req') = Req.password (Req.body req) →
  Req.errors req' = [] →
  let db' := (register SECRET bcrypt_hash jwt_sign env req db).2 in
  login SECRET bcrypt_compare jwt_sign req' db' =
    (mkResponse 200
       (Token (jwt_sign (mkPayload (Req.mkUser (newId env))) SECRET
                        (mkSignOptions "5 days"))),
     db').
Proof.
  intros Hbcrypt H200 Hemail Hpw Herr.
  destruct (register_200_inv SECRET bcrypt_hash jwt_sign env req db H200) as (_ & Hnone & Hnew & ->). simpl.
  rewrite (login_cases SECRET bcrypt_compare jwt_sign), Herr. simpl.
  set (db' := Db.mk (<[newId env := new_user bcrypt_hash env req]> (Db.users db)) (Db.games db)).
  destruct (User_findOne_exists (Req.email (Req.body req')) db'
              (newId env) (new_user bcrypt_hash env req)) as [d Hd].
  { simpl. by rewrite lookup_insert_eq. }
  { by rewrite Hemail. }
  destruct (User_findOne_Some _ _ _ _ Hd) as [Hin Hmail].
  unfold User_findOne in Hd. injection Hd as Hd. fold db'. rewrite Hd.
  assert (Hid : d.1 = newId env).
  { destruct (decide (d.1 = newId env)) as [|Hne]; [done|].
    simpl in Hin. rewrite lookup_insert_ne in Hin by done.
    destruct (Hnone _ _ Hin). by rewrite Hmail. }
  simpl in Hin. rewrite Hid, lookup_insert_eq in Hin. injection Hin as Hin.
  rewrite <- Hin. simpl. rewrite Hpw, Hbcrypt. simpl. unfold _id. by rewrite Hid.
Qed.

(** X12: A login that passed validation is answered "Invalid Credentials", status
    400, both when no user has the email and when bcrypt rejects the password
    against the stored hash of every user with the email; the two cases get
    the same answer, and nothing is stored. *)
Theorem login_invalid_credentials (SECRET : string) (bcrypt_compare : string → string → bool)
    (jwt_sign : JwtPayload → string → SignOptions → string)
    (req : Req.t) (db : Db.t) :
  Req.errors req = [] →
  (∀ id u, Db.users db !! id = Some u →
           User.email u = Req.email (Req.body req) →
           ∃ hashed, User.password u = Some hashed ∧
                     bcrypt_compare (Req.password (Req.body req)) hashed = false) →
  login SECRET bcrypt_compare jwt_sign req db =
    (mkResponse 400 (Errors ["Invalid Credentials"]), db).
Proof.
  intros Herr Hbad. rewrite (login_cases SECRET bcrypt_compare jwt_sign), Herr. simpl.
  destruct (head _) as [d|] eqn:Hhead; [|done].
  destruct (User_findOne_Some (Req.email (Req.body req)) db db d) as [Hin Hmail].
  { unfold User_findOne. by rewrite Hhead. }
  destruct (Hbad _ _ Hin Hmail) as (hashed & Hpw & Hcmp).
  by rewrite Hpw, Hcmp.
Qed.

(** X13: Whatever the request, registration changes no stored user and no game:
    every user that was stored is stored unchanged afterwards, also when the
    new id collides with a stored one. *)
Theorem register_keeps_accounts (SECRET : string) (bcrypt_hash : string → string → string)
    (jwt_sign : JwtPayload → string → SignOptions → string)
    (env : Env) (req : Req.t) (db : Db.t) :
  let db' := (register SECRET bcrypt_hash jwt_sign env req db).2 in
  Db.games db' = Db.games db ∧
  ∀ id u, Db.users db !! id = Some u → Db.users db' !! id = Some u.
Proof.
  rewrite (register_cases SECRET bcrypt_hash jwt_sign).
  repeat (case_match; simpl in *; simplify_eq); split; auto.
  intros id u Hlook. destruct (decide (id = newId env)) as [->|Hne]; [congruence|].
  by rewrite lookup_insert_ne.
Qed.

Lemma register_success_stores_user_witness :
  (register "s3cret" Sample.hash Sample.sign Sample.env
            (Sample.credentials "b@x.com" "secret2") Sample.db).1 =
    mkResponse 200 (Token "5f1d7f3a9c1b2a00123456a4/5d") ∧
  Db.users (register "s3cret" Sample.hash Sample.sign Sample.env
                     (Sample.credentials "b@x.com" "secret2") Sample.db).2
    !! "5f1d7f3a9c1b2a00123456a4" =
    Some (User.mk "b@x.com" (Some "$2a$05$saltsecret2") false [] 40).
Proof.
  pose proof (register_success_stores_user "s3cret" Sample.hash Sample.sign Sample.env
                (Sample.credentials "b@x.com" "secret2") Sample.db eq_refl)
    as (Hres & _ & Hnew & _).
  split; [exact Hres | exact Hnew].
Defined.

Lemma register_twice_conflict_witness :
  register "s3cret" Sample.hash Sample.sign (mkEnv Sample.g3 50 "$2a$05$other")
           (Sample.credentials "b@x.com" "another")
           (register "s3cret" Sample.hash Sample.sign Sample.env
                     (Sample.credentials "b@x.com" "secret2") Sample.db).2 =
    (mkResponse 400 (Errors ["User already exists"]),
     (register "s3cret" Sample.hash Sample.sign Sample.env
               (Sample.credentials "b@x.com" "secret2") Sample.db).2).
Proof.
  apply (register_twice_conflict "s3cret" Sample.hash Sample.sign Sample.env
           (mkEnv Sample.g3 50 "$2a$05$other")
           (Sample.credentials "b@x.com" "secret2")
           (Sample.credentials "b@x.com" "another") Sample.db
           eq_refl eq_refl eq_refl).
Defined.

Lemma login_after_register_witness :
  (login "s3cret" Sample.compare Sample.sign (Sample.credentials "b@x.com" "secret2")
         (register "s3cret" Sample.hash Sample.sign Sample.env
                   (Sample.credentials "b@x.com" "secret2") Sample.db).2).1 =
    mkResponse 200 (Token "5f1d7f3a9c1b2a00123456a4/5 days").
Proof.
  exact (f_equal fst
    (login_after_register "s3cret" Sample.hash Sample.compare Sample.sign Sample.env
       (Sample.credentials "b@x.com" "secret2") (Sample.credentials "b@x.com" "secret2")
       Sample.db eq_refl eq_refl eq_refl eq_refl eq_refl)).
Defined.

Lemma login_invalid_credentials_witness :
  login "s3cret" Sample.compare Sample.sign (Sample.credentials "nobody@x.com" "secret1")
        Sample.db =
    (mkResponse 400 (Errors ["Invalid Credentials"]), Sample.db) ∧
  login "s3cret" Sample.compare Sample.sign (Sample.credentials "a@x.com" "wrongpass")
        Sample.db =
    (mkResponse 400 (Errors ["Invalid Credentials"]), Sample.db).
Proof.
  split.
  - apply (login_invalid_credentials "s3cret" Sample.compare Sample.sign
             (Sample.credentials "nobody@x.com" "secret1") Sample.db eq_refl).
    intros id u Hlook Hemail. exfalso.
    unfold Sample.db in Hlook. simpl in Hlook. revert Hlook.
    rewrite lookup_insert. case_decide as H1.
    + intros [= <-]. discriminate Hemail.
    + rewrite lookup_singleton. case_decide; [|done].
      intros [= <-]. discriminate Hemail.
  - apply (login_invalid_credentials "s3cret" Sample.compare Sample.sign
             (Sample.credentials "a@x.com" "wrongpass") Sample.db eq_refl).
    intros id u Hlook Hemail.
    unfold Sample.db in Hlook. simpl in Hlook. revert Hlook.
    rewrite lookup_insert. case_decide as H1.
    + intros [= <-]. by eexists.
    + rewrite lookup_singleton. case_decide; [|done].
      intros [= <-]. discriminate Hemail.
Defined.

(** ** Users: the caller's record, the list, and deletion *)

(** X14: The answer to the current-user request never carries a password: when it
    carries a user document, that is the stored record of the caller (the
    user whose ObjectId the token's id casts to) with the password left
    out. *)
Theorem getAuth_hides_password (req : Req.t) (db : Db.t) (d : Doc User.t) :
  body (getAuth req db).1 = UserJson d →
  User.password d.2 = None ∧
  (∃ uid, Req.user req = Some (Req.mkUser uid) ∧ castObjectId uid = Some d.1) ∧
  ∃ u, Db.users db !! d.1 = Some u ∧
       User.email d.2 = User.email u ∧ User.admin d.2 = User.admin u ∧
       User.games d.2 = User.games u ∧ User.date d.2 = User.date u.
Proof.
  unfold getAuth. unfold_ops.
  destruct (Req.user req) as [[uid]|]; simpl; [|discriminate].
  destruct (castObjectId uid) as [ku|] eqn:Huid; simpl; [|discriminate].
  destruct (Db.users db !! ku) as [u|] eqn:Hlook; simpl; [|discriminate].
  intros [= <-]. simpl. repeat split.
  - by exists uid.
  - by exists u.
Qed.

Lemma getAuth_hides_password_witness :
  User.password (Sample.u1, User.mk "a@x.com" None false [] 1000).2 = None.
Proof.
  apply (getAuth_hides_password (Sample.req Sample.u1 "" "") Sample.db
           (Sample.u1, User.mk "a@x.com" None false [] 1000) eq_refl).
Defined.

(** X15: The current-user request of a caller whose record is gone is answered
    with status 200 and a [null] body, not with "not found". *)
Theorem getAuth_missing_user_null (req : Req.t) (db : Db.t) (uid ku : string) :
  Req.user req = Some (Req.mkUser uid) →
  castObjectId uid = Some ku →
  Db.users db !! ku = None →
  getAuth req db = (mkResponse 200 JsonNull, db).
Proof.
  intros Hu Huid Hlook. unfold getAuth. unfold_ops.
  rewrite Hu. simpl. by rewrite Huid, Hlook.
Qed.

Lemma getAuth_missing_user_null_witness :
  getAuth (Sample.req Sample.u3 "" "") Sample.db = (mkResponse 200 JsonNull, Sample.db).
Proof.
  apply (getAuth_missing_user_null (Sample.req Sample.u3 "" "") Sample.db
           Sample.u3 Sample.u3 eq_refl eq_refl eq_refl).
Defined.

(** X16: The user list is answered to any request, with status 200: it holds every
    stored user once, each without the password and with the other fields as
    stored, and nothing else. *)
Theorem getUsers_all_without_password (req : Req.t) (db : Db.t) :
  ∃ l, getUsers req db = (mkResponse 200 (UsersJson l), db) ∧
       length l = size (Db.users db) ∧
       ∀ d, d ∈ l ↔
            ∃ u, Db.users db !! d.1 = Some u ∧
                 d.2 = User.mk (User.email u) None (User.admin u) (User.games u)
                               (User.date u).
Proof.
  eexists. split; [reflexivity|].
  assert (Hfmap : ∀ l : list (Doc User.t),
            omap (λ d, select_no_password (Some d)) l =
            (λ d : Doc User.t,
               (d.1, User.mk (User.email d.2) None (User.admin d.2) (User.games d.2)
                             (User.date d.2))) <$> l).
  { induction l as [|x l IH]; [done|]. simpl. by f_equal. }
  rewrite Hfmap. split.
  - rewrite length_fmap. apply length_map_to_list.
  - intros d. rewrite list_elem_of_fmap. split.
    + intros ([id u] & -> & Hin). apply elem_of_map_to_list in Hin. by exists u.
    + intros (u & Hlook & Hd). exists (d.1, u). split.
      * destruct d as [id v]. simpl in *. by subst.
      * by apply elem_of_map_to_list.
Qed.

(** X17: A deletion request of a caller whose record is gone, for a user that
    exists, is answered "Server error" and deletes nothing. *)
Theorem deleteUser_missing_actor (req : Req.t) (db : Db.t) (uid ku kt : string) (t : User.t) :
  Req.user req = Some (Req.mkUser uid) →
  castObjectId uid = Some ku →
  Db.users db !! ku = None →
  castObjectId (Req.user_id (Req.params req)) = Some kt →
  Db.users db !! kt = Some t →
  deleteUser req db = (server_error, db).
Proof.
  intros Hu Huid Hlook Htid Ht. unfold deleteUser. unfold_ops.
  rewrite Htid, Ht, Hu. simpl. by rewrite Huid, Hlook.
Qed.

Lemma deleteUser_missing_actor_witness :
  deleteUser (Sample.req Sample.u3 "" Sample.u1) Sample.db = (server_error, Sample.db).
Proof.
  apply (deleteUser_missing_actor (Sample.req Sample.u3 "" Sample.u1) Sample.db
           Sample.u3 Sample.u3 Sample.u1 Sample.alice
           eq_refl eq_refl eq_refl eq_refl eq_refl).
Defined.

(** X18: Whatever the request, user deletion leaves the games as they are and can
    remove no user but the one whose ObjectId the path's id casts to,
    whatever the spelling of that id; it changes no user. *)
Theorem deleteUser_only_target (req : Req.t) (db : Db.t) :
  let db' := (deleteUser req db).2 in
  Db.games db' = Db.games db ∧
  (∀ id, castObjectId (Req.user_id (Req.params req)) ≠ Some id →
         Db.users db' !! id = Db.users db !! id) ∧
  (∀ id u, Db.users db' !! id = Some u → Db.users db !! id = Some u).
Proof.
  unfold deleteUser. unfold_ops.
  repeat (case_match; simpl in *; simplify_eq); repeat split; auto.
  all: match goal with
       | H : _ <$> _ = Some ?d |- context [delete ?d.1 _] =>
           apply fmap_Some in H as (? & _ & ->)
       end; simpl.
  - intros id Hne. rewrite lookup_delete_ne; [done|]. congruence.
  - intros id u Hlook. by apply lookup_delete_Some in Hlook as [_ ?].
Qed.

(** X19: After a user deleted their own account, the token still names them: the
    current-user request is answered with [null], and a completion request
    for a game that exists with "Server error". *)
Theorem deleteUser_self_then_requests (req req' : Req.t) (db : Db.t)
    (uid ku kg : string) (u : User.t) (g : Game.t) :
  Req.user req = Some (Req.mkUser uid) →
  Req.user_id (Req.params req) = uid →
  castObjectId uid = Some ku →
  Db.users db !! ku = Some u →
  Req.user req' = Some (Req.mkUser uid) →
  castObjectId (Req.game_id (Req.params req')) = Some kg →
  Db.games db !! kg = Some g →
  let db' := (deleteUser req db).2 in
  (deleteUser req db).1 =
    mkResponse 200 (Msg "User successfully deleted from our platform") ∧
  getAuth req' db' = (mkResponse 200 JsonNull, db') ∧
  completeGame req' db' = (server_error, db').
Proof.
  intros Hu Hself Huid Hlook Hu' Hgid Hg db'. subst db'.
  rewrite (deleteUser_found req db uid ku ku u u) by (by rewrite ?Hself).
  rewrite Hself, bool_decide_eq_true_2, orb_true_r by done. simpl.
  repeat split.
  - unfold getAuth. unfold_ops. rewrite Hu'. simpl.
    by rewrite Huid, lookup_delete_eq.
  - unfold completeGame. unfold_ops. rewrite Hu'. simpl.
    rewrite Huid, Hgid. simpl. by rewrite lookup_delete_eq, Hg.
Qed.

Lemma deleteUser_self_then_requests_witness :
  getAuth (Sample.req Sample.u1 Sample.g1 "")
          (deleteUser (Sample.req Sample.u1 "" Sample.u1) Sample.db).2 =
    (mkResponse 200 JsonNull, (deleteUser (Sample.req Sample.u1 "" Sample.u1) Sample.db).2).
Proof.
  apply (deleteUser_self_then_requests (Sample.req Sample.u1 "" Sample.u1)
           (Sample.req Sample.u1 Sample.g1 "") Sample.db
           Sample.u1 Sample.u1 Sample.g1 Sample.alice (Sample.quiz "Quiz1" 2 10)
           eq_refl eq_refl eq_refl eq_refl eq_refl eq_refl eq_refl).
Defined.

(** ** Routes that only read *)

(** X20: Reading one game, listing the games, the current-user request, the user
    list and login never change the store, whatever the request. *)
Theorem read_routes_keep_store (SECRET : string)
    (bcrypt_compare : string → string → bool)
    (jwt_sign : JwtPayload → string → SignOptions → string)
    (req : Req.t) (db : Db.t) :
  (getGame req db).2 = db ∧
  (getGames req db).2 = db ∧
  (getAuth req db).2 = db ∧
  (getUsers req db).2 = db ∧
  (login SECRET bcrypt_compare jwt_sign req db).2 = db.
Proof.
  repeat split.
  - by rewrite getGame_run.
  - unfold getAuth. unfold_ops. by repeat (case_match; simpl in *; simplify_eq).
  - by rewrite (login_cases SECRET bcrypt_compare jwt_sign).
Qed.

(** ** Ids that are no ObjectId *)

(** X21: A path id that does not cast to an ObjectId (neither 24 hex digits nor
    12 characters) makes the lookup throw, and the [catch] answers as for a
    missing target: "Game not found" when reading, completing or deleting a
    game, "User not found" when deleting a user; nothing is written. *)
Theorem uncastable_id_not_found (req : Req.t) (db : Db.t) (uid : string) :
  Req.user req = Some (Req.mkUser uid) →
  (castObjectId (Req.game_id (Req.params req)) = None →
     getGame req db = (not_found_game, db) ∧
     completeGame req db = (not_found_game, db) ∧
     deleteGame req db = (not_found_game, db)) ∧
  (castObjectId (Req.user_id (Req.params req)) = None →
     deleteUser req db = (not_found_user, db)).
Proof.
  intros Hu. split.
  - intros Hgid. repeat split.
    + by rewrite getGame_run, Hgid.
    + unfold completeGame. unfold_ops. rewrite Hu. simpl.
      destruct (castObjectId uid); [|done]. simpl. by rewrite Hgid.
    + unfold deleteGame. unfold_ops. by rewrite Hgid.
  - intros Htid. unfold deleteUser. unfold_ops. by rewrite Htid.
Qed.

Lemma uncastable_id_not_found_witness :
  completeGame (Sample.req Sample.u1 "quiz-1" "") Sample.db = (not_found_game, Sample.db) ∧
  deleteUser (Sample.req Sample.u2 "" "alice") Sample.db = (not_found_user, Sample.db).
Proof.
  split.
  - apply (uncastable_id_not_found (Sample.req Sample.u1 "quiz-1" "") Sample.db
             Sample.u1 eq_refl). reflexivity.
  - apply (uncastable_id_not_found (Sample.req Sample.u2 "" "alice") Sample.db
             Sample.u2 eq_refl). reflexivity.
Defined.

(** ** Deleting a user, by the handler's own test *)

(** X22: When the caller's record and the target both exist, the deletion
    succeeds exactly when the caller is an admin or the id in the path is
    spelled as the id in the token; the target then cannot be found any more.
    Otherwise the request gets the "not allowed" rejection, the store is
    unchanged and the target is still found. *)
Theorem deleteUser_admin_or_same_spelling (req : Req.t) (db : Db.t)
    (uid ku kt : string) (a t : User.t) :
  let tid := Req.user_id (Req.params req) in
  Req.user req = Some (Req.mkUser uid) →
  castObjectId uid = Some ku →
  Db.users db !! ku = Some a →
  castObjectId tid = Some kt →
  Db.users db !! kt = Some t →
  let res := (deleteUser req db).1 in
  let db' := (deleteUser req db).2 in
  (res = mkResponse 200 (Msg "User successfully deleted from our platform")
     ↔ tid = uid ∨ User.admin a = true) ∧
  (tid = uid ∨ User.admin a = true →
     User_findById tid db' = (Value None, db')) ∧
  (¬ (tid = uid ∨ User.admin a = true) →
     res = mkResponse 401 (Msg "Not allowed to delete this user") ∧
     db' = db ∧
     User_findById tid db' = (Value (Some (kt, t)), db')).
Proof.
  intros tid Hu Huid Hlook Htid Ht res db'. subst res db'.
  rewrite (deleteUser_found req db uid ku kt a t) by done. fold tid.
  assert (Hor : User.admin a || bool_decide (tid = uid) = true
                ↔ tid = uid ∨ User.admin a = true).
  { rewrite orb_true_iff, bool_decide_eq_true. tauto. }
  destruct (User.admin a || bool_decide (tid = uid)) eqn:Hb; simpl.
  - split; [tauto|]. split.
    + intros _. unfold User_findById, findById. rewrite Htid. simpl.
      by rewrite lookup_delete_eq.
    + intros Hn. exfalso. apply Hn. by apply Hor.
  - assert (Hn : ¬ (tid = uid ∨ User.admin a = true)).
    { intros H. apply Hor in H. discriminate H. }
    split; [split; [discriminate | tauto]|]. split; [tauto|].
    intros _. repeat split. unfold User_findById, findById. by rewrite Htid, Ht.
Qed.

Lemma deleteUser_admin_or_same_spelling_witness :
  (* Alice deletes herself *)
  (deleteUser (Sample.req Sample.u1 "" Sample.u1) Sample.db).1 =
    mkResponse 200 (Msg "User successfully deleted from our platform") ∧
  (* Alice, no admin, may not delete root *)
  (deleteUser (Sample.req Sample.u1 "" Sample.u2) Sample.db).1 =
    mkResponse 401 (Msg "Not allowed to delete this user") ∧
  (* root deletes Alice, whatever the spelling of her id *)
  (deleteUser (Sample.req Sample.u2 "" Sample.U1) Sample.db).1 =
    mkResponse 200 (Msg "User successfully deleted from our platform").
Proof.
  split; [|split].
  - apply (deleteUser_admin_or_same_spelling (Sample.req Sample.u1 "" Sample.u1) Sample.db
             Sample.u1 Sample.u1 Sample.u1 Sample.alice Sample.alice
             eq_refl eq_refl eq_refl eq_refl eq_refl).
    by left.
  - apply (deleteUser_admin_or_same_spelling (Sample.req Sample.u1 "" Sample.u2) Sample.db
             Sample.u1 Sample.u1 Sample.u2 Sample.alice Sample.root
             eq_refl eq_refl eq_refl eq_refl eq_refl).
    intros [H | H]; discriminate H.
  - apply (deleteUser_admin_or_same_spelling (Sample.req Sample.u2 "" Sample.U1) Sample.db
             Sample.u2 Sample.u2 Sample.u1 Sample.root Sample.alice
             eq_refl eq_refl eq_refl eq_refl eq_refl).
    by right.
Defined.
